(** * go-store: the in-memory key-value store of [main.go]

    A shallow embedding of [KVStore[K, V]] and of its four operations
    ([Create], [Read], [Update], [Delete]) together with the internal probe
    [Has], and of the [Server] whose four handlers call them, followed by
    the properties of the store's contract and of the handlers.

    The Go map [data map[K]V] is a [gmap K V]; the [sync.RWMutex] guarding it
    is a small record (a writer flag and a reader count).  A method call is a
    computation over the store that either finishes with a result and a new
    store, or never returns ([Blocks]: the lock it asks for is taken), or
    crashes the process ([Fatal]: a lock released that was not held). *)

From stdpp Require Import gmap strings fin_maps.

(** ** Outcomes of a call, and the monad threading the store *)

Inductive outcome (S A : Type) : Type :=
  | Done (a : A) (s : S)
  | Blocks
  | Fatal.
Arguments Done {S A} a s.
Arguments Blocks {S A}.
Arguments Fatal {S A}.

Definition M (S A : Type) : Type := S → outcome S A.

#[global] Instance M_ret {S} : MRet (M S) := λ A a s, Done a s.

#[global] Instance M_bind {S} : MBind (M S) :=
  λ A B f c s, match c s with
               | Done a s' => f a s'
               | Blocks => Blocks
               | Fatal => Fatal
               end.

(** ** sync.RWMutex *)

Module RWMutex.

Record t : Type := mk { writer : bool; readers : nat }.

(** The zero value of a [sync.RWMutex] is an unlocked mutex. *)
Definition zero : t := mk false 0.

(** [Lock] waits until no reader and no writer holds the mutex. *)
Definition Lock (m : t) : option t :=
  if writer m then None
  else match readers m with
       | O => Some (mk true 0)
       | S _ => None
       end.

(** [Unlock] of a mutex not locked for writing is a run-time error. *)
Definition Unlock (m : t) : option t :=
  if writer m then Some (mk false (readers m)) else None.

(** [RLock] waits only for a writer; readers share the mutex. *)
Definition RLock (m : t) : option t :=
  if writer m then None else Some (mk false (S (readers m))).

(** [RUnlock] of a mutex not locked for reading is a run-time error. *)
Definition RUnlock (m : t) : option t :=
  match readers m with
  | O => None
  | S n => Some (mk (writer m) n)
  end.

End RWMutex.

(** ** Go's [error]: [nil] or a message *)

Definition error : Type := option string.
Definition nil : error := None.

Section KVStore.

Context {K : Type} `{Countable K} {V : Type}.

(** The zero value of [V], which a map index expression yields for a
    missing key. *)
Variable zeroV : V.

(** [%v] of a key, as [fmt.Errorf] renders it. *)
Variable fmt_v : K → string.

Record KVStore : Type := mkKVStore {
  mu : RWMutex.t;
  data : gmap K V
}.

Definition NewKVStore : KVStore :=
  {| mu := RWMutex.zero; data := ∅ |}.

(** A store between two calls: nobody holds the mutex. *)
Definition at_rest (m : gmap K V) : KVStore :=
  {| mu := RWMutex.zero; data := m |}.

(** *** Primitive steps *)

Definition mu_Lock : M KVStore unit :=
  λ k, match RWMutex.Lock (mu k) with
       | Some l => Done tt {| mu := l; data := data k |}
       | None => Blocks
       end.

Definition mu_Unlock : M KVStore unit :=
  λ k, match RWMutex.Unlock (mu k) with
       | Some l => Done tt {| mu := l; data := data k |}
       | None => Fatal
       end.

Definition mu_RLock : M KVStore unit :=
  λ k, match RWMutex.RLock (mu k) with
       | Some l => Done tt {| mu := l; data := data k |}
       | None => Blocks
       end.

Definition mu_RUnlock : M KVStore unit :=
  λ k, match RWMutex.RUnlock (mu k) with
       | Some l => Done tt {| mu := l; data := data k |}
       | None => Fatal
       end.

(** [value, ok := k.data[key]] *)
Definition index (key : K) : M KVStore (V * bool) :=
  λ k, match data k !! key with
       | Some v => Done (v, true) k
       | None => Done (zeroV, false) k
       end.

(** [k.data[key] = value] *)
Definition assign (key : K) (value : V) : M KVStore unit :=
  λ k, Done tt {| mu := mu k; data := <[key := value]> (data k) |}.

(** [delete(k.data, key)] *)
Definition delete_key (key : K) : M KVStore unit :=
  λ k, Done tt {| mu := mu k; data := delete key (data k) |}.

(** [fmt.Errorf("key (%v) does not exists", key)] *)
Definition not_found (key : K) : error :=
  Some ("key (" +:+ fmt_v key +:+ ") does not exists").

(** *** The methods *)

(** [Has] takes no lock: its callers hold one. *)
Definition Has (key : K) : M KVStore (V * bool) :=
  '(value, ok) ← index key;
  mret (value, ok).

(** The deferred [Unlock] runs once the returned value is fixed. *)
Definition Create (key : K) (value : V) : M KVStore error :=
  mu_Lock ;;
  assign key value ;;
  mu_Unlock ;;
  mret nil.

Definition Read (key : K) : M KVStore (V * error) :=
  mu_RLock ;;
  '(value, ok) ← index key;
  if negb ok
  then mu_RUnlock ;; mret (value, not_found key)
  else mu_RUnlock ;; mret (value, nil).

Definition Update (key : K) (value : V) : M KVStore error :=
  mu_Lock ;;
  '(_, keyExists) ← Has key;
  (if keyExists : bool then assign key value else mret tt) ;;
  mu_Unlock ;;
  mret nil.

Definition Delete (key : K) : M KVStore (V * error) :=
  mu_Lock ;;
  '(v, keyExists) ← Has key;
  (if keyExists : bool then delete_key key else mret tt) ;;
  mu_Unlock ;;
  mret (v, nil).

End KVStore.

Arguments KVStore K {_ _} V.
Arguments NewKVStore {K _ _ V}.
Arguments at_rest {K _ _ V} m.

(** ** The store of the HTTP server: [NewKVStore[string, string]()] *)

Module StringStore.

(** The zero value of Go's [string]. *)
Definition zero : string := "".

(** [%v] prints a string as it is. *)
Definition fmt_v (key : string) : string := key.

Definition New : KVStore string string := NewKVStore.
Definition Create : string → string → M (KVStore string string) error :=
  Create.
Definition Read : string → M (KVStore string string) (string * error) :=
  Read zero fmt_v.
Definition Update : string → string → M (KVStore string string) error :=
  Update zero.
Definition Delete : string → M (KVStore string string) (string * error) :=
  Delete zero.

End StringStore.

(** The calls behind [/create/foo/bar], [/read/foo], [/update/foo/baz],
    [/read/foo], [/delete/foo], [/read/foo], in that order, on a new store:
    the values and errors they return, and the store they leave. *)
Definition session : M (KVStore string string)
    (error * (string * error) * error * (string * error)
     * (string * error) * (string * error)) :=
  e1 ← StringStore.Create "foo" "bar";
  r1 ← StringStore.Read "foo";
  e2 ← StringStore.Update "foo" "baz";
  r2 ← StringStore.Read "foo";
  d ← StringStore.Delete "foo";
  r3 ← StringStore.Read "foo";
  mret (e1, r1, e2, r2, d, r3).

(** ** Stores reached by sequential use *)

Section Reachable.

Context {K : Type} `{Countable K} {V : Type}.
Variable zeroV : V.
Variable fmt_v : K → string.

(** The stores one goroutine sees between its calls: the store built by
    [NewKVStore], and every store a call that returned has left. *)
Inductive reachable : KVStore K V → Prop :=
  | reach_New : reachable NewKVStore
  | reach_Create s key value e s' :
      reachable s → Create key value s = Done e s' → reachable s'
  | reach_Read s key r s' :
      reachable s → Read zeroV fmt_v key s = Done r s' → reachable s'
  | reach_Update s key value e s' :
      reachable s → Update zeroV key value s = Done e s' → reachable s'
  | reach_Delete s key r s' :
      reachable s → Delete zeroV key s = Done r s' → reachable s'.

End Reachable.

(** ** The [Storer] interface *)

Module Storer.

Class t (St K V : Type) : Type := {
  Create : K → V → M St error;
  Read : K → M St (V * error);
  Update : K → V → M St error;
  Delete : K → M St (V * error)
}.

End Storer.

(** [*KVStore[string, string]] is the [Storer[string, string]] that
    [NewServer] installs. *)
#[global] Instance KVStore_Storer :
  Storer.t (KVStore string string) string string := {|
  Storer.Create := StringStore.Create;
  Storer.Read := StringStore.Read;
  Storer.Update := StringStore.Update;
  Storer.Delete := StringStore.Delete
|}.

(** ** What the handlers use of [echo.Context] and of [net/http] *)

Module echo.

(** [c.Param(name)] reads a path parameter; [c.JSON(code, body)] sends the
    response and returns the error of doing so. *)
Class Context (C : Type) : Type := {
  Param : string → C → string;
  JSON : Z → gmap string string → M C error
}.

End echo.

Module http.

Definition StatusOK : Z := 200.

End http.

(** ** The server and its handlers *)

Record Server (St : Type) : Type := mkServer {
  Store : St;
  Port : string
}.
Arguments mkServer {St} Store Port.
Arguments Store {St} s.
Arguments Port {St} s.

Definition NewServer (port : string) : Server (KVStore string string) :=
  {| Store := StringStore.New; Port := port |}.

Section Handlers.

Context {St : Type} `{Storer.t St string string}.
Context {C : Type} `{echo.Context C}.

(** A handler runs on the server it is a method of and on the context of
    the request. *)
Definition World : Type := Server St * C.

(** [s.Store.f(...)] *)
Definition on_store {A} (c : M St A) : M World A :=
  λ w, match c (Store w.1) with
       | Done a st => Done a ({| Store := st; Port := Port w.1 |}, w.2)
       | Blocks => Blocks
       | Fatal => Fatal
       end.

(** [c.f(...)] for a method that acts on the context *)
Definition on_ctx {A} (c : M C A) : M World A :=
  λ w, match c w.2 with
       | Done a cx => Done a (w.1, cx)
       | Blocks => Blocks
       | Fatal => Fatal
       end.

(** [c.Param(name)] *)
Definition c_Param (name : string) : M World string :=
  λ w, Done (echo.Param name w.2) w.

Definition handleCreate : M World error :=
  key ← c_Param "key";
  value ← c_Param "value";
  err ← on_store (Storer.Create key value);
  match err with
  | Some _ => mret err
  | None =>
      err ← on_ctx (echo.JSON http.StatusOK {[ "message" := "created" ]});
      match err with
      | Some _ => mret err
      | None => mret nil
      end
  end.

Definition handleRead : M World error :=
  key ← c_Param "key";
  '(value, err) ← on_store (Storer.Read key);
  match err with
  | Some _ => mret err
  | None =>
      err ← on_ctx (echo.JSON http.StatusOK {[ "value" := value ]});
      match err with
      | Some _ => mret err
      | None => mret nil
      end
  end.

Definition handleUpdate : M World error :=
  key ← c_Param "key";
  value ← c_Param "value";
  err ← on_store (Storer.Update key value);
  match err with
  | Some _ => mret err
  | None =>
      err ← on_ctx (echo.JSON http.StatusOK
                      {[ "message" := "updated"; "key" := key;
                         "value" := value ]});
      match err with
      | Some _ => mret err
      | None => mret nil
      end
  end.

Definition handleDelete : M World error :=
  key ← c_Param "key";
  '(value, err) ← on_store (Storer.Delete key);
  match err with
  | Some _ => mret err
  | None =>
      err ← on_ctx (echo.JSON http.StatusOK
                      {[ "message" := "deleted"; "value" := value ]});
      match err with
      | Some _ => mret err
      | None => mret nil
      end
  end.

End Handlers.

(** ** Fixtures for the examples *)

(** A request context that keeps its path parameters in a map (a missing
    one reads as the empty string) and records the responses sent. *)
Module Recorder.

Record t : Type := mk {
  params : gmap string string;
  sent : list (Z * gmap string string)
}.

Definition request (ps : gmap string string) : t := mk ps [].

#[global] Instance context : echo.Context t := {|
  echo.Param name c := default "" (params c !! name);
  echo.JSON code body := λ c, Done nil (mk (params c) (sent c ++ [(code, body)]))
|}.

End Recorder.

(** A [Storer] that refuses every call. *)
Module Refusing.

Definition refused : error := Some "refused".

#[global] Instance storer : Storer.t unit string string := {|
  Storer.Create _ _ := λ s, Done refused s;
  Storer.Read _ := λ s, Done ("", refused) s;
  Storer.Update _ _ := λ s, Done refused s;
  Storer.Delete _ := λ s, Done ("", refused) s
|}.

End Refusing.

(** * Properties *)

(** ** Running a sequence of calls *)

Lemma bind_Done {S A B} (c : M S A) (f : A → M S B) s a s' :
  c s = Done a s' → (c ≫= f) s = f a s'.
Proof. intros E. unfold mbind, M_bind. by rewrite E. Qed.

Lemma bind_Blocks {S A B} (c : M S A) (f : A → M S B) s :
  c s = Blocks → (c ≫= f) s = Blocks.
Proof. intros E. unfold mbind, M_bind. by rewrite E. Qed.

Section KVStore_spec.

Context {K : Type} `{Countable K} {V : Type}.
Variable zeroV : V.
Variable fmt_v : K → string.

Implicit Types (m : gmap K V) (k : K) (v : V).

(** *** One call on a store at rest *)

Lemma Create_at_rest m k v :
  Create k v (at_rest m) = Done nil (at_rest (<[k := v]> m)).
Proof. reflexivity. Qed.

Lemma Read_at_rest_Some m k v :
  m !! k = Some v →
  Read zeroV fmt_v k (at_rest m) = Done (v, nil) (at_rest m).
Proof.
  intros E. unfold Read, index, mbind, M_bind. cbn. by rewrite E.
Qed.

Lemma Read_at_rest_None m k :
  m !! k = None →
  Read zeroV fmt_v k (at_rest m) = Done (zeroV, not_found fmt_v k) (at_rest m).
Proof.
  intros E. unfold Read, index, mbind, M_bind. cbn. by rewrite E.
Qed.

Lemma Update_at_rest_Some m k v v0 :
  m !! k = Some v0 →
  Update zeroV k v (at_rest m) = Done nil (at_rest (<[k := v]> m)).
Proof.
  intros E. unfold Update, Has, index, mbind, M_bind. cbn. by rewrite E.
Qed.

Lemma Update_at_rest_None m k v :
  m !! k = None →
  Update zeroV k v (at_rest m) = Done nil (at_rest m).
Proof.
  intros E. unfold Update, Has, index, mbind, M_bind. cbn. by rewrite E.
Qed.

Lemma Delete_at_rest_Some m k v :
  m !! k = Some v →
  Delete zeroV k (at_rest m) = Done (v, nil) (at_rest (delete k m)).
Proof.
  intros E. unfold Delete, Has, index, mbind, M_bind. cbn. by rewrite E.
Qed.

Lemma Delete_at_rest_None m k :
  m !! k = None →
  Delete zeroV k (at_rest m) = Done (zeroV, nil) (at_rest m).
Proof.
  intros E. unfold Delete, Has, index, mbind, M_bind. cbn. by rewrite E.
Qed.

(** *** The mutex is taken and given back inside each call *)

Lemma writer_waits (l : RWMutex.t) m k v :
  l ≠ RWMutex.zero →
  Create k v {| mu := l; data := m |} = Blocks
  ∧ Update zeroV k v {| mu := l; data := m |} = Blocks
  ∧ Delete zeroV k {| mu := l; data := m |} = Blocks.
Proof.
  intros Hl. destruct l as [[] [|n]]; try done.
Qed.

Lemma reader_waits_for_writer n m k :
  Read zeroV fmt_v k {| mu := RWMutex.mk true n; data := m |} = Blocks.
Proof. reflexivity. Qed.

Lemma reader_shares n m k :
  ∃ r, Read zeroV fmt_v k {| mu := RWMutex.mk false n; data := m |}
       = Done r {| mu := RWMutex.mk false n; data := m |}.
Proof.
  unfold Read, index, mbind, M_bind. cbn. destruct (m !! k); eauto.
Qed.

(** *** The contract of the store *)

(** C1: on any store, [Create(k, v)] followed by [Read(k)] returns [v]
    and a nil error. *)
Theorem C1_read_after_create m k v :
  (Create k v ;; Read zeroV fmt_v k) (at_rest m)
  = Done (v, nil) (at_rest (<[k := v]> m)).
Proof.
  rewrite (bind_Done _ _ _ _ _ (Create_at_rest m k v)).
  apply Read_at_rest_Some, lookup_insert_eq.
Qed.

(** C2: [Read(k)] of a key absent from the mapping, and so of any key on a
    store just built by [NewKVStore], returns the "does not exists" error
    together with the zero value of [V] (no stored value). *)
Theorem C2_read_absent k :
  Read zeroV fmt_v k NewKVStore = Done (zeroV, not_found fmt_v k) NewKVStore
  ∧ not_found fmt_v k ≠ nil
  ∧ ∀ m, m !! k = None →
      Read zeroV fmt_v k (at_rest m)
      = Done (zeroV, not_found fmt_v k) (at_rest m).
Proof.
  split_and!.
  - apply (Read_at_rest_None ∅), lookup_empty.
  - discriminate.
  - intros m. apply Read_at_rest_None.
Qed.

(** C3: [Create(k, v1)], then [Update(k, v2)], then [Read(k)] returns
    [v2]: [Update] on an existing key overwrites its value. *)
Theorem C3_update_overwrites m k v1 v2 :
  (Create k v1 ;; Update zeroV k v2 ;; Read zeroV fmt_v k) (at_rest m)
  = Done (v2, nil) (at_rest (<[k := v2]> m)).
Proof.
  rewrite (bind_Done _ _ _ _ _ (Create_at_rest m k v1)).
  rewrite (bind_Done _ _ _ nil (at_rest (<[k := v2]> (<[k := v1]> m)))).
  - rewrite insert_insert_eq. apply Read_at_rest_Some, lookup_insert_eq.
  - apply (Update_at_rest_Some _ _ _ v1), lookup_insert_eq.
Qed.

(** C4: [Update(k, v)] of a key absent from the store returns a nil error
    and leaves the whole mapping as it was; [k] is still absent, and a
    [Read(k)] that follows still fails. *)
Theorem C4_update_absent_noop m k v :
  m !! k = None →
  Update zeroV k v (at_rest m) = Done nil (at_rest m)
  ∧ data (at_rest m) !! k = None
  ∧ (Update zeroV k v ;; Read zeroV fmt_v k) (at_rest m)
    = Done (zeroV, not_found fmt_v k) (at_rest m).
Proof.
  intros E. split_and!.
  - by apply Update_at_rest_None.
  - done.
  - rewrite (bind_Done _ _ _ _ _ (Update_at_rest_None m k v E)).
    by apply Read_at_rest_None.
Qed.

(** C5: after [Create(k, v)], [Delete(k)] returns the prior value [v] and
    a nil error, and removes [k] from the mapping: a [Read(k)] that follows
    fails with the not-found error. *)
Theorem C5_delete_after_create m k v :
  (Create k v ;; Delete zeroV k) (at_rest m)
  = Done (v, nil) (at_rest (delete k m))
  ∧ data (at_rest (delete k m)) !! k = None
  ∧ (Create k v ;; Delete zeroV k ;; Read zeroV fmt_v k) (at_rest m)
    = Done (zeroV, not_found fmt_v k) (at_rest (delete k m)).
Proof.
  assert (Delete zeroV k (at_rest (<[k := v]> m))
          = Done (v, nil) (at_rest (delete k m))) as ED.
  { rewrite <- (delete_insert_eq m k v).
    apply Delete_at_rest_Some, lookup_insert_eq. }
  split_and!.
  - by rewrite (bind_Done _ _ _ _ _ (Create_at_rest m k v)).
  - apply lookup_delete_eq.
  - rewrite (bind_Done _ _ _ _ _ (Create_at_rest m k v)).
    rewrite (bind_Done _ _ _ _ _ ED).
    apply Read_at_rest_None, lookup_delete_eq.
Qed.

(** C6: [Delete(k)] of a key absent from the store returns the zero value
    of [V] and a nil error, and leaves the mapping as it was. *)
Theorem C6_delete_absent_noop m k :
  m !! k = None →
  Delete zeroV k (at_rest m) = Done (zeroV, nil) (at_rest m).
Proof. apply Delete_at_rest_None. Qed.

(** C7: [Create] returns a nil error on every store, key and value; so do
    [Update] and [Delete]; [Read] is the one operation that can return an
    error, and it does so exactly when its key is absent. *)
Theorem C7_only_read_fails m k v :
  Create k v (at_rest m) = Done nil (at_rest (<[k := v]> m))
  ∧ (∃ s', Update zeroV k v (at_rest m) = Done nil s')
  ∧ (∃ v' s', Delete zeroV k (at_rest m) = Done (v', nil) s')
  ∧ (∃ v' e, Read zeroV fmt_v k (at_rest m) = Done (v', e) (at_rest m)
             ∧ (e ≠ nil ↔ m !! k = None)).
Proof.
  split_and!.
  - apply Create_at_rest.
  - destruct (m !! k) as [v0|] eqn:E.
    + eexists. by apply (Update_at_rest_Some _ _ _ v0).
    + eexists. by apply Update_at_rest_None.
  - destruct (m !! k) as [v0|] eqn:E.
    + do 2 eexists. by apply Delete_at_rest_Some.
    + do 2 eexists. by apply Delete_at_rest_None.
  - destruct (m !! k) as [v0|] eqn:E.
    + exists v0, nil. split; [by apply Read_at_rest_Some|].
      split; [intros Hn; by destruct Hn | discriminate].
    + exists zeroV, (not_found fmt_v k).
      split; [by apply Read_at_rest_None|]. split; [done | discriminate].
Qed.

(** C9: [Create(k, v)], [Update(k, v)] and [Delete(k)] leave the presence
    and the value of every other key [k'] as they were. *)
Theorem C9_other_keys_untouched m k k' v :
  k ≠ k' →
  (∃ m', Create k v (at_rest m) = Done nil (at_rest m')
         ∧ m' !! k' = m !! k')
  ∧ (∃ m', Update zeroV k v (at_rest m) = Done nil (at_rest m')
           ∧ m' !! k' = m !! k')
  ∧ (∃ r m', Delete zeroV k (at_rest m) = Done r (at_rest m')
             ∧ m' !! k' = m !! k').
Proof.
  intros Hne. split_and!.
  - eexists. split; [apply Create_at_rest|]. by apply lookup_insert_ne.
  - destruct (m !! k) as [v0|] eqn:E.
    + eexists. split; [by apply (Update_at_rest_Some _ _ _ v0)|].
      by apply lookup_insert_ne.
    + eexists. split; [by apply Update_at_rest_None|]. done.
  - destruct (m !! k) as [v0|] eqn:E.
    + do 2 eexists. split; [by apply Delete_at_rest_Some|].
      by apply lookup_delete_ne.
    + do 2 eexists. split; [by apply Delete_at_rest_None|]. done.
Qed.

(** C10: on a key already present, [Update(k, v)] and [Create(k, v)] end
    in the same store (and both return nil); and [Create(k, v)] twice in a
    row ends in the same store as [Create(k, v)] once. *)
Theorem C10_update_is_create_when_present m k v :
  (is_Some (m !! k) →
   Update zeroV k v (at_rest m) = Create k v (at_rest m))
  ∧ (Create k v ;; Create k v) (at_rest m) = Create k v (at_rest m).
Proof.
  split.
  - intros [v0 E]. rewrite Create_at_rest.
    by apply (Update_at_rest_Some _ _ _ v0).
  - rewrite (bind_Done _ _ _ _ _ (Create_at_rest m k v)).
    rewrite !Create_at_rest. by rewrite insert_insert_eq.
Qed.

End KVStore_spec.

(** ** The properties at work on the server's store *)

(** The session above, run on a new store. *)
Example session_run :
  session StringStore.New
  = Done (nil, ("bar", nil), nil, ("baz", nil), ("baz", nil),
          ("", Some "key (foo) does not exists"))
         StringStore.New.
Proof. vm_compute. reflexivity. Qed.

(** A call on a store whose mutex a writer holds does not return. *)
Example read_under_writer :
  StringStore.Read "foo" {| mu := RWMutex.mk true 0; data := ∅ |} = Blocks.
Proof. reflexivity. Qed.


Lemma C2_read_absent_witness :
  ({[ "foo" := "bar" ]} : gmap string string) !! "baz" = None
  ∧ StringStore.Read "baz" (at_rest {[ "foo" := "bar" ]})
    = Done ("", Some "key (baz) does not exists")
           (at_rest {[ "foo" := "bar" ]}).
Proof.
  split; [vm_compute; reflexivity|].
  apply (proj2 (proj2
    (C2_read_absent StringStore.zero StringStore.fmt_v "baz"))).
  vm_compute; reflexivity.
Defined.

Lemma C4_update_absent_noop_witness :
  ({[ "foo" := "bar" ]} : gmap string string) !! "baz" = None
  ∧ StringStore.Update "baz" "qux" (at_rest {[ "foo" := "bar" ]})
    = Done nil (at_rest {[ "foo" := "bar" ]}).
Proof.
  split; [vm_compute; reflexivity|].
  apply (C4_update_absent_noop StringStore.zero StringStore.fmt_v
           {[ "foo" := "bar" ]} "baz" "qux").
  vm_compute; reflexivity.
Defined.

Lemma C6_delete_absent_noop_witness :
  (∅ : gmap string string) !! "foo" = None
  ∧ StringStore.Delete "foo" StringStore.New = Done ("", nil) StringStore.New.
Proof.
  split; [vm_compute; reflexivity|].
  apply (C6_delete_absent_noop StringStore.zero ∅ "foo").
  vm_compute; reflexivity.
Defined.

Lemma C9_other_keys_untouched_witness :
  "foo" ≠ "baz"
  ∧ ∃ r m', StringStore.Delete "foo" (at_rest {[ "foo" := "1"; "baz" := "2" ]})
            = Done r (at_rest m')
            ∧ m' !! "baz" = ({[ "foo" := "1"; "baz" := "2" ]} : gmap string string) !! "baz".
Proof.
  assert ("foo" ≠ "baz") as Hne by discriminate.
  split; [exact Hne|].
  apply (C9_other_keys_untouched StringStore.zero
           {[ "foo" := "1"; "baz" := "2" ]} "foo" "baz" "" Hne).
Defined.

Lemma C10_update_is_create_when_present_witness :
  is_Some (({[ "foo" := "bar" ]} : gmap string string) !! "foo")
  ∧ StringStore.Update "foo" "baz" (at_rest {[ "foo" := "bar" ]})
    = StringStore.Create "foo" "baz" (at_rest {[ "foo" := "bar" ]}).
Proof.
  assert (is_Some (({[ "foo" := "bar" ]} : gmap string string) !! "foo")) as Hin.
  { exists "bar". vm_compute; reflexivity. }
  split; [exact Hin|].
  apply (proj1 (C10_update_is_create_when_present StringStore.zero
                  {[ "foo" := "bar" ]} "foo" "baz") Hin).
Defined.

(** * Further properties of the store *)

Section KVStore_more.

Context {K : Type} `{Countable K} {V : Type}.
Variable zeroV : V.
Variable fmt_v : K → string.

Implicit Types (m : gmap K V) (k : K) (v : V) (l : RWMutex.t).
Implicit Types (s : KVStore K V).

(** *** One call, whatever the key *)

Lemma Read_at_rest m k :
  Read zeroV fmt_v k (at_rest m)
  = Done (default zeroV (m !! k),
          if m !! k is Some _ then nil else not_found fmt_v k) (at_rest m).
Proof.
  destruct (m !! k) as [v0|] eqn:E; cbn.
  - by apply Read_at_rest_Some.
  - by apply Read_at_rest_None.
Qed.

Lemma Update_at_rest m k v :
  Update zeroV k v (at_rest m) = Done nil (at_rest (alter (λ _, v) k m)).
Proof.
  rewrite alter_alt. destruct (m !! k) as [v0|] eqn:E.
  - by apply (Update_at_rest_Some _ _ _ _ v0).
  - by apply Update_at_rest_None.
Qed.

Lemma Delete_at_rest m k :
  Delete zeroV k (at_rest m)
  = Done (default zeroV (m !! k), nil) (at_rest (delete k m)).
Proof.
  destruct (m !! k) as [v0|] eqn:E; cbn.
  - by apply Delete_at_rest_Some.
  - rewrite (delete_id m k E). by apply Delete_at_rest_None.
Qed.

Lemma store_eta s : s = {| mu := mu s; data := data s |}.
Proof. by destruct s. Qed.

Lemma mu_zero_at_rest s : mu s = RWMutex.zero → s = at_rest (data s).
Proof. destruct s as [l m]. cbn. by intros ->. Qed.

Lemma Read_shared n m k :
  Read zeroV fmt_v k {| mu := RWMutex.mk false n; data := m |}
  = Done (default zeroV (m !! k),
          if m !! k is Some _ then nil else not_found fmt_v k)
         {| mu := RWMutex.mk false n; data := m |}.
Proof.
  unfold Read, index, mbind, M_bind. cbn. by destruct (m !! k).
Qed.

Lemma writers_block l m k v :
  l ≠ RWMutex.zero →
  Create k v {| mu := l; data := m |} = Blocks
  ∧ Update zeroV k v {| mu := l; data := m |} = Blocks
  ∧ Delete zeroV k {| mu := l; data := m |} = Blocks.
Proof. intros Hl. destruct l as [[] [|n]]; done. Qed.

Lemma reachable_at_rest m : reachable zeroV fmt_v (at_rest m).
Proof.
  induction m as [|k v m Hk IH] using map_ind.
  - apply reach_New.
  - apply (reach_Create _ _ _ k v nil _ IH), Create_at_rest.
Qed.

Lemma reachable_mu s : reachable zeroV fmt_v s → mu s = RWMutex.zero.
Proof.
  induction 1 as [|s k v e s' _ IH E|s k r s' _ IH E
                  |s k v e s' _ IH E|s k r s' _ IH E]; [done|..];
    rewrite (mu_zero_at_rest s IH) in E.
  - rewrite Create_at_rest in E. by inversion E.
  - rewrite Read_at_rest in E. by inversion E.
  - rewrite Update_at_rest in E. by inversion E.
  - rewrite Delete_at_rest in E. by inversion E.
Qed.

(** *** The probe and the lock *)

(** X1: [Has] returns on every store, whoever holds the mutex, and leaves
    the store as it is; its flag is true exactly for a key of the mapping,
    and [Read] of the same key on the store at rest returns the same value,
    with a nil error exactly when the flag is true. *)
Theorem X1_Has_agrees_with_Read l m k :
  ∃ v ok,
    Has zeroV k {| mu := l; data := m |}
    = Done (v, ok) {| mu := l; data := m |}
    ∧ (ok = true ↔ is_Some (m !! k))
    ∧ Read zeroV fmt_v k (at_rest m)
      = Done (v, if ok then nil else not_found fmt_v k) (at_rest m).
Proof.
  rewrite Read_at_rest. unfold Has, index, mbind, M_bind. cbn.
  destruct (m !! k) as [v0|]; cbn.
  - exists v0, true. split_and!; [done| |done]. split; [eauto|done].
  - exists zeroV, false. split_and!; [done| |done].
    split; [done|]. by intros [? ?].
Qed.

(** X2: no call ever releases a mutex it does not hold: on every store each
    of the four operations either waits for the lock or returns with the
    mutex exactly as it found it. *)
Theorem X2_lock_given_back s k v :
  (Create k v s = Blocks
   ∨ ∃ e m', Create k v s = Done e {| mu := mu s; data := m' |})
  ∧ (Read zeroV fmt_v k s = Blocks
     ∨ ∃ r m', Read zeroV fmt_v k s = Done r {| mu := mu s; data := m' |})
  ∧ (Update zeroV k v s = Blocks
     ∨ ∃ e m', Update zeroV k v s = Done e {| mu := mu s; data := m' |})
  ∧ (Delete zeroV k s = Blocks
     ∨ ∃ r m', Delete zeroV k s = Done r {| mu := mu s; data := m' |}).
Proof.
  destruct s as [[[] n] m]; cbn [mu].
  - split_and!; left; [by destruct n|done|by destruct n|by destruct n].
  - destruct n as [|n].
    + change {| mu := RWMutex.mk false 0; data := m |} with (at_rest m).
      rewrite Create_at_rest, Read_at_rest, Update_at_rest, Delete_at_rest.
      split_and!; right; eauto.
    + split_and!; [by left| |by left|by left].
      right. rewrite Read_shared. eauto.
Qed.



(** *** Sequential use *)

(** X5: the stores one goroutine reaches from [NewKVStore] by calls that
    return are exactly the stores whose mutex is free, with any mapping. *)
Theorem X5_reachable_iff_free s :
  reachable zeroV fmt_v s ↔ mu s = RWMutex.zero.
Proof.
  split; [apply reachable_mu|].
  intros E. rewrite (mu_zero_at_rest s E). apply reachable_at_rest.
Qed.

(** X6: used by one goroutine the store never waits: on a reachable store
    every call returns, the writers with a nil error and a store that is
    reachable again, [Read] without changing the store. *)
Theorem X6_sequential_calls_return s k v :
  reachable zeroV fmt_v s →
  (∃ s', Create k v s = Done nil s' ∧ reachable zeroV fmt_v s')
  ∧ (∃ r, Read zeroV fmt_v k s = Done r s)
  ∧ (∃ s', Update zeroV k v s = Done nil s' ∧ reachable zeroV fmt_v s')
  ∧ (∃ r s', Delete zeroV k s = Done (r, nil) s'
             ∧ reachable zeroV fmt_v s').
Proof.
  intros Hs. rewrite (mu_zero_at_rest s (reachable_mu s Hs)).
  rewrite Create_at_rest, Read_at_rest, Update_at_rest, Delete_at_rest.
  split_and!; eauto using reachable_at_rest.
Qed.

(** *** The keys of the mapping *)

(** X7: [Create(k, v)] adds [k] to the keys of the mapping and nothing
    else, [Update(k, v)] leaves the set of keys as it is, and [Delete(k)]
    takes [k] away and nothing else. *)
Theorem X7_key_set m k v :
  (∃ m', Create k v (at_rest m) = Done nil (at_rest m')
         ∧ dom m' = {[ k ]} ∪ dom m)
  ∧ (∃ m', Update zeroV k v (at_rest m) = Done nil (at_rest m')
           ∧ dom m' = dom m)
  ∧ (∃ r m', Delete zeroV k (at_rest m) = Done r (at_rest m')
             ∧ dom m' = dom m ∖ {[ k ]}).
Proof.
  rewrite Create_at_rest, Update_at_rest, Delete_at_rest. split_and!.
  - eexists. split; [done|]. apply dom_insert_L.
  - eexists. split; [done|]. apply dom_alter_L.
  - do 2 eexists. split; [done|]. apply dom_delete_L.
Qed.

(** X8: the number of entries grows by one when [Create] stores a new key
    and stays the same when it overwrites one; it is the same after
    [Update]; it shrinks by one when [Delete] removes a key and stays the
    same when the key is absent. *)
Theorem X8_size m k v :
  (∃ m', Create k v (at_rest m) = Done nil (at_rest m')
         ∧ size m' = if m !! k is Some _ then size m else S (size m))
  ∧ (∃ m', Update zeroV k v (at_rest m) = Done nil (at_rest m')
           ∧ size m' = size m)
  ∧ (∃ r m', Delete zeroV k (at_rest m) = Done r (at_rest m')
             ∧ size m = if m !! k is Some _ then S (size m') else size m').
Proof.
  rewrite Create_at_rest, Update_at_rest, Delete_at_rest. split_and!.
  - eexists. split; [done|]. rewrite map_size_insert. by destruct (m !! k).
  - eexists. split; [done|]. rewrite alter_alt.
    destruct (m !! k) as [v0|] eqn:E; [|done].
    apply map_size_insert_Some. by rewrite E.
  - do 2 eexists. split; [done|]. rewrite map_size_delete.
    destruct (m !! k) as [v0|] eqn:E; [|done]. cbn.
    assert (size m ≠ 0); [|lia].
    apply map_size_ne_0_lookup. eauto.
Qed.

(** *** How the calls compose *)

(** X9: the last [Create] of a key wins: [Create(k, v1)] then
    [Create(k, v2)] ends as [Create(k, v2)] alone does. *)
Theorem X9_last_Create_wins m k v1 v2 :
  (Create k v1 ;; Create k v2) (at_rest m) = Create k v2 (at_rest m).
Proof.
  rewrite (bind_Done _ _ _ _ _ (Create_at_rest m k v1)).
  rewrite !Create_at_rest. by rewrite insert_insert_eq.
Qed.

(** X10: [Create] calls on different keys commute. *)
Theorem X10_Create_commutes m k1 k2 v1 v2 :
  k1 ≠ k2 →
  (Create k1 v1 ;; Create k2 v2) (at_rest m)
  = (Create k2 v2 ;; Create k1 v1) (at_rest m).
Proof.
  intros Hne.
  rewrite (bind_Done _ _ _ _ _ (Create_at_rest m k1 v1)).
  rewrite (bind_Done _ _ _ _ _ (Create_at_rest m k2 v2)).
  rewrite !Create_at_rest. by rewrite insert_insert_ne.
Qed.

(** X11: [Create(k, v)] of a key that was absent, then [Delete(k)], gives
    [v] back and leaves the store as it was before the two calls. *)
Theorem X11_Create_Delete_round_trip m k v :
  m !! k = None →
  (Create k v ;; Delete zeroV k) (at_rest m) = Done (v, nil) (at_rest m).
Proof.
  intros E. rewrite (bind_Done _ _ _ _ _ (Create_at_rest m k v)).
  rewrite Delete_at_rest, lookup_insert_eq, delete_insert_eq.
  by rewrite delete_id.
Qed.

(** X12: a second [Delete(k)] finds nothing: it returns the zero value and
    a nil error, and the store is as the first [Delete(k)] left it. *)
Theorem X12_Delete_twice m k :
  (Delete zeroV k ;; Delete zeroV k) (at_rest m)
  = Done (zeroV, nil) (at_rest (delete k m)).
Proof.
  rewrite (bind_Done _ _ _ _ _ (Delete_at_rest m k)).
  rewrite Delete_at_rest, lookup_delete_eq. by rewrite delete_delete_eq.
Qed.

(** X13: the value [Delete(k)] returns is the value [Read(k)] returns on
    the same store, the zero value included; only [Read] reports the
    missing key. *)
Theorem X13_Delete_returns_what_Read_returns m k :
  ∃ v e,
    Read zeroV fmt_v k (at_rest m) = Done (v, e) (at_rest m)
    ∧ Delete zeroV k (at_rest m) = Done (v, nil) (at_rest (delete k m))
    ∧ (e = nil ↔ is_Some (m !! k)).
Proof.
  rewrite Read_at_rest, Delete_at_rest. do 2 eexists.
  split_and!; [done..|].
  destruct (m !! k) as [v0|]; split; [eauto|done|done|by intros [? ?]].
Qed.

(** X14: [Update] does not bring a deleted key back: after [Delete(k)],
    [Update(k, v)] stores nothing and [Read(k)] fails. *)
Theorem X14_Update_after_Delete m k v :
  (Delete zeroV k ;; Update zeroV k v ;; Read zeroV fmt_v k) (at_rest m)
  = Done (zeroV, not_found fmt_v k) (at_rest (delete k m)).
Proof.
  rewrite (bind_Done _ _ _ _ _ (Delete_at_rest m k)).
  rewrite (bind_Done _ _ _ _ _
             (Update_at_rest_None zeroV (delete k m) k v (lookup_delete_eq m k))).
  apply Read_at_rest_None, lookup_delete_eq.
Qed.

(** X15: [Update(k, v)] is the in-place change of the entry of [k], if
    there is one, to [v]; the last of two [Update]s of a key wins. *)
Theorem X15_Update_alters m k v1 v2 :
  Update zeroV k v2 (at_rest m) = Done nil (at_rest (alter (λ _, v2) k m))
  ∧ (Update zeroV k v1 ;; Update zeroV k v2) (at_rest m)
    = Update zeroV k v2 (at_rest m).
Proof.
  split; [apply Update_at_rest|].
  rewrite (bind_Done _ _ _ _ _ (Update_at_rest m k v1)).
  rewrite !Update_at_rest. by rewrite alter_alter_eq.
Qed.

End KVStore_more.

(** * Properties of the handlers *)

Lemma return_err {W} (c : M W error) w :
  (err ← c;
   match err with
   | Some _ => mret err
   | None => mret nil
   end) w = c w.
Proof.
  unfold mbind, M_bind. by destruct (c w) as [[e|] w'| |].
Qed.

Section Handlers_any_store.

Context {St : Type} `{Storer.t St string string}.
Context {C : Type} `{echo.Context C}.

Implicit Types (st : St) (cx : C) (p : string).

Lemma on_store_Done {A} (c : M St A) st p cx a st' :
  c st = Done a st' →
  on_store c ({| Store := st; Port := p |}, cx)
  = Done a ({| Store := st'; Port := p |}, cx).
Proof. intros E. unfold on_store. cbn. by rewrite E. Qed.

(** X16: a handler whose store call returns an error returns that error
    and sends no response: the context is as the request left it. *)
Theorem X16_store_error_is_returned st p cx :
  (∀ e st',
     Storer.Create (echo.Param "key" cx) (echo.Param "value" cx) st
     = Done (Some e) st' →
     handleCreate ({| Store := st; Port := p |}, cx)
     = Done (Some e) ({| Store := st'; Port := p |}, cx))
  ∧ (∀ v e st',
       Storer.Read (echo.Param "key" cx) st = Done (v, Some e) st' →
       handleRead ({| Store := st; Port := p |}, cx)
       = Done (Some e) ({| Store := st'; Port := p |}, cx))
  ∧ (∀ e st',
       Storer.Update (echo.Param "key" cx) (echo.Param "value" cx) st
       = Done (Some e) st' →
       handleUpdate ({| Store := st; Port := p |}, cx)
       = Done (Some e) ({| Store := st'; Port := p |}, cx))
  ∧ (∀ v e st',
       Storer.Delete (echo.Param "key" cx) st = Done (v, Some e) st' →
       handleDelete ({| Store := st; Port := p |}, cx)
       = Done (Some e) ({| Store := st'; Port := p |}, cx)).
Proof.
  split_and!; intros; unfold handleCreate, handleRead, handleUpdate,
    handleDelete, c_Param, mbind, M_bind; cbn;
    by erewrite on_store_Done by eassumption.
Qed.

End Handlers_any_store.

Section Handlers_KVStore.

Context {C : Type} `{echo.Context C}.

Implicit Types (m : gmap string string) (cx : C) (p : string).

Lemma handleCreate_at_rest m p cx :
  handleCreate ({| Store := at_rest m; Port := p |}, cx)
  = on_ctx (echo.JSON 200 {[ "message" := "created" ]})
      ({| Store := at_rest (<[echo.Param "key" cx := echo.Param "value" cx]> m);
          Port := p |}, cx).
Proof.
  unfold handleCreate, c_Param. unfold mbind at 1 2 3, M_bind. cbn.
  erewrite on_store_Done by apply Create_at_rest.
  apply return_err.
Qed.

Lemma handleRead_at_rest_Some m p cx v :
  m !! echo.Param "key" cx = Some v →
  handleRead ({| Store := at_rest m; Port := p |}, cx)
  = on_ctx (echo.JSON 200 {[ "value" := v ]})
      ({| Store := at_rest m; Port := p |}, cx).
Proof.
  intros E. unfold handleRead, c_Param. unfold mbind at 1 2, M_bind. cbn.
  erewrite on_store_Done
    by apply (Read_at_rest_Some StringStore.zero StringStore.fmt_v _ _ _ E).
  apply return_err.
Qed.

(** X17: [handleCreate] stores the request's value under the request's key
    and then answers 200 with [{"message": "created"}]; what it returns is
    what sending the answer returns, and the entry is stored whether or not
    the answer could be sent. *)
Theorem X17_handleCreate m p cx :
  handleCreate ({| Store := at_rest m; Port := p |}, cx)
  = on_ctx (echo.JSON 200 {[ "message" := "created" ]})
      ({| Store := at_rest (<[echo.Param "key" cx := echo.Param "value" cx]> m);
          Port := p |}, cx).
Proof. apply handleCreate_at_rest. Qed.

(** X18: [handleRead] of a key of the mapping answers 200 with
    [{"value": v}], [v] the stored value, returns what sending the answer
    returns, and leaves the store as it is. *)
Theorem X18_handleRead_found m p cx v :
  m !! echo.Param "key" cx = Some v →
  handleRead ({| Store := at_rest m; Port := p |}, cx)
  = on_ctx (echo.JSON 200 {[ "value" := v ]})
      ({| Store := at_rest m; Port := p |}, cx).
Proof. apply handleRead_at_rest_Some. Qed.

(** X19: [handleRead] of a key that is not in the mapping, so of any key on
    the server [NewServer] builds, returns the error
    "key (<key>) does not exists" and sends no response; the store is as it
    was. *)
Theorem X19_handleRead_missing p cx :
  handleRead (NewServer p, cx)
  = Done (Some ("key (" +:+ echo.Param "key" cx +:+ ") does not exists"))
         (NewServer p, cx)
  ∧ ∀ m, m !! echo.Param "key" cx = None →
      handleRead ({| Store := at_rest m; Port := p |}, cx)
      = Done (Some ("key (" +:+ echo.Param "key" cx +:+ ") does not exists"))
             ({| Store := at_rest m; Port := p |}, cx).
Proof.
  assert (∀ m, m !! echo.Param "key" cx = None →
      handleRead ({| Store := at_rest m; Port := p |}, cx)
      = Done (Some ("key (" +:+ echo.Param "key" cx +:+ ") does not exists"))
             ({| Store := at_rest m; Port := p |}, cx)) as Hm.
  { intros m E. unfold handleRead, c_Param, mbind, M_bind. cbn.
    by erewrite on_store_Done
      by apply (Read_at_rest_None StringStore.zero StringStore.fmt_v _ _ E). }
  split; [|done]. apply (Hm ∅), lookup_empty.
Qed.

(** X20: [handleUpdate] answers 200 with "updated" and the request's key
    and value whether or not the key is in the mapping; the store gets the
    value only if the key was there, and for a missing key it is left as it
    was. *)
Theorem X20_handleUpdate m p cx :
  handleUpdate ({| Store := at_rest m; Port := p |}, cx)
  = on_ctx (echo.JSON 200
              {[ "message" := "updated"; "key" := echo.Param "key" cx;
                 "value" := echo.Param "value" cx ]})
      ({| Store := at_rest (alter (λ _, echo.Param "value" cx)
                              (echo.Param "key" cx) m);
          Port := p |}, cx)
  ∧ (m !! echo.Param "key" cx = None →
     handleUpdate ({| Store := at_rest m; Port := p |}, cx)
     = on_ctx (echo.JSON 200
                 {[ "message" := "updated"; "key" := echo.Param "key" cx;
                    "value" := echo.Param "value" cx ]})
         ({| Store := at_rest m; Port := p |}, cx)).
Proof.
  assert (handleUpdate ({| Store := at_rest m; Port := p |}, cx)
    = on_ctx (echo.JSON 200
              {[ "message" := "updated"; "key" := echo.Param "key" cx;
                 "value" := echo.Param "value" cx ]})
      ({| Store := at_rest (alter (λ _, echo.Param "value" cx)
                              (echo.Param "key" cx) m);
          Port := p |}, cx)) as Hu.
  { unfold handleUpdate, c_Param. unfold mbind at 1 2 3, M_bind. cbn.
    erewrite on_store_Done by apply (Update_at_rest StringStore.zero).
    apply return_err. }
  split; [done|]. intros E. rewrite Hu, alter_alt. by rewrite E.
Qed.

(** X21: [handleDelete] removes the key and answers 200 with "deleted" and
    the value the key had; for a key that is not in the mapping it answers
    the same way with the empty string as value. *)
Theorem X21_handleDelete m p cx :
  handleDelete ({| Store := at_rest m; Port := p |}, cx)
  = on_ctx (echo.JSON 200
              {[ "message" := "deleted";
                 "value" := default "" (m !! echo.Param "key" cx) ]})
      ({| Store := at_rest (delete (echo.Param "key" cx) m); Port := p |}, cx).
Proof.
  unfold handleDelete, c_Param. unfold mbind at 1 2, M_bind. cbn.
  erewrite on_store_Done by apply (Delete_at_rest StringStore.zero).
  apply return_err.
Qed.

(** X22: once a [/create] request has been handled, a [/read] request for
    the same key is answered 200 with the value of the [/create] request,
    whether or not the answer to [/create] could be sent. *)
Theorem X22_read_after_create m p c1 c2 e w :
  handleCreate ({| Store := at_rest m; Port := p |}, c1) = Done e w →
  echo.Param "key" c2 = echo.Param "key" c1 →
  handleRead (w.1, c2)
  = on_ctx (echo.JSON 200 {[ "value" := echo.Param "value" c1 ]}) (w.1, c2).
Proof.
  rewrite handleCreate_at_rest. unfold on_ctx at 1. cbn.
  destruct (echo.JSON _ _ c1) as [e' c1'| |]; [|done..].
  intros [= <- <-] Ek. cbn [fst].
  apply handleRead_at_rest_Some. rewrite Ek. apply lookup_insert_eq.
Qed.

End Handlers_KVStore.

(** ** The further properties at work *)

(** [GET /create/foo/bar] on a new server, then [GET /read/foo]. *)
Example create_request :
  handleCreate (NewServer ":3000",
                Recorder.request {[ "key" := "foo"; "value" := "bar" ]})
  = Done nil
      ({| Store := at_rest {[ "foo" := "bar" ]}; Port := ":3000" |},
       Recorder.mk {[ "key" := "foo"; "value" := "bar" ]}
                   [(200%Z, {[ "message" := "created" ]})]).
Proof. vm_compute. reflexivity. Qed.

Example read_request :
  handleRead ({| Store := at_rest {[ "foo" := "bar" ]}; Port := ":3000" |},
              Recorder.request {[ "key" := "foo" ]})
  = Done nil
      ({| Store := at_rest {[ "foo" := "bar" ]}; Port := ":3000" |},
       Recorder.mk {[ "key" := "foo" ]} [(200%Z, {[ "value" := "bar" ]})]).
Proof. vm_compute. reflexivity. Qed.

Lemma X6_sequential_calls_return_witness :
  reachable StringStore.zero StringStore.fmt_v StringStore.New
  ∧ ∃ r, StringStore.Read "foo" StringStore.New = Done r StringStore.New.
Proof.
  split; [apply reach_New|].
  apply (X6_sequential_calls_return StringStore.zero StringStore.fmt_v
           StringStore.New "foo" "bar" (reach_New _ _)).
Defined.

Lemma X10_Create_commutes_witness :
  "foo" ≠ "baz"
  ∧ (StringStore.Create "foo" "1" ;; StringStore.Create "baz" "2")
      StringStore.New
    = (StringStore.Create "baz" "2" ;; StringStore.Create "foo" "1")
        StringStore.New.
Proof.
  assert ("foo" ≠ "baz") as Hne by discriminate.
  split; [exact Hne|].
  apply (X10_Create_commutes (∅ : gmap string string)
           "foo" "baz" "1" "2" Hne).
Defined.

Lemma X11_Create_Delete_round_trip_witness :
  (∅ : gmap string string) !! "foo" = None
  ∧ (StringStore.Create "foo" "bar" ;; StringStore.Delete "foo")
      StringStore.New
    = Done ("bar", nil) StringStore.New.
Proof.
  split; [vm_compute; reflexivity|].
  apply (X11_Create_Delete_round_trip StringStore.zero ∅ "foo" "bar").
  vm_compute; reflexivity.
Defined.

Lemma X16_store_error_is_returned_witness :
  handleCreate
    ({| Store := tt; Port := ":3000" |},
     Recorder.request {[ "key" := "foo"; "value" := "bar" ]})
  = Done Refusing.refused
      ({| Store := tt; Port := ":3000" |},
       Recorder.request {[ "key" := "foo"; "value" := "bar" ]})
  ∧ handleRead
      ({| Store := tt; Port := ":3000" |},
       Recorder.request {[ "key" := "foo"; "value" := "bar" ]})
    = Done Refusing.refused
        ({| Store := tt; Port := ":3000" |},
         Recorder.request {[ "key" := "foo"; "value" := "bar" ]})
  ∧ handleUpdate
      ({| Store := tt; Port := ":3000" |},
       Recorder.request {[ "key" := "foo"; "value" := "bar" ]})
    = Done Refusing.refused
        ({| Store := tt; Port := ":3000" |},
         Recorder.request {[ "key" := "foo"; "value" := "bar" ]})
  ∧ handleDelete
      ({| Store := tt; Port := ":3000" |},
       Recorder.request {[ "key" := "foo"; "value" := "bar" ]})
    = Done Refusing.refused
        ({| Store := tt; Port := ":3000" |},
         Recorder.request {[ "key" := "foo"; "value" := "bar" ]}).
Proof.
  destruct (X16_store_error_is_returned tt ":3000"
              (Recorder.request {[ "key" := "foo"; "value" := "bar" ]}))
    as (Hc & Hr & Hu & Hd).
  split_and!.
  - apply (Hc "refused" tt). reflexivity.
  - apply (Hr "" "refused" tt). reflexivity.
  - apply (Hu "refused" tt). reflexivity.
  - apply (Hd "" "refused" tt). reflexivity.
Defined.

Lemma X18_handleRead_found_witness :
  ({[ "foo" := "bar" ]} : gmap string string)
    !! echo.Param "key" (Recorder.request {[ "key" := "foo" ]})
  = Some "bar"
  ∧ handleRead ({| Store := at_rest {[ "foo" := "bar" ]}; Port := ":3000" |},
                Recorder.request {[ "key" := "foo" ]})
    = on_ctx (echo.JSON 200 {[ "value" := "bar" ]})
        ({| Store := at_rest {[ "foo" := "bar" ]}; Port := ":3000" |},
         Recorder.request {[ "key" := "foo" ]}).
Proof.
  assert (({[ "foo" := "bar" ]} : gmap string string)
            !! echo.Param "key" (Recorder.request {[ "key" := "foo" ]})
          = Some "bar") as E by (vm_compute; reflexivity).
  split; [exact E|].
  apply (X18_handleRead_found {[ "foo" := "bar" ]} ":3000"
           (Recorder.request {[ "key" := "foo" ]}) "bar" E).
Defined.

Lemma X19_handleRead_missing_witness :
  ({[ "foo" := "bar" ]} : gmap string string)
    !! echo.Param "key" (Recorder.request {[ "key" := "baz" ]})
  = None
  ∧ handleRead ({| Store := at_rest {[ "foo" := "bar" ]}; Port := ":3000" |},
                Recorder.request {[ "key" := "baz" ]})
    = Done (Some "key (baz) does not exists")
        ({| Store := at_rest {[ "foo" := "bar" ]}; Port := ":3000" |},
         Recorder.request {[ "key" := "baz" ]}).
Proof.
  assert (({[ "foo" := "bar" ]} : gmap string string)
            !! echo.Param "key" (Recorder.request {[ "key" := "baz" ]})
          = None) as E by (vm_compute; reflexivity).
  split; [exact E|].
  apply (proj2 (X19_handleRead_missing ":3000"
                  (Recorder.request {[ "key" := "baz" ]}))
           {[ "foo" := "bar" ]} E).
Defined.

Lemma X20_handleUpdate_witness :
  ({[ "foo" := "bar" ]} : gmap string string)
    !! echo.Param "key"
         (Recorder.request {[ "key" := "baz"; "value" := "qux" ]})
  = None
  ∧ handleUpdate
      ({| Store := at_rest {[ "foo" := "bar" ]}; Port := ":3000" |},
       Recorder.request {[ "key" := "baz"; "value" := "qux" ]})
    = Done nil
        ({| Store := at_rest {[ "foo" := "bar" ]}; Port := ":3000" |},
         Recorder.mk {[ "key" := "baz"; "value" := "qux" ]}
           [(200%Z, {[ "message" := "updated"; "key" := "baz";
                       "value" := "qux" ]})]).
Proof.
  assert (({[ "foo" := "bar" ]} : gmap string string)
            !! echo.Param "key"
                 (Recorder.request {[ "key" := "baz"; "value" := "qux" ]})
          = None) as E by (vm_compute; reflexivity).
  split; [exact E|].
  rewrite (proj2 (X20_handleUpdate {[ "foo" := "bar" ]} ":3000"
                    (Recorder.request {[ "key" := "baz"; "value" := "qux" ]}))
             E).
  vm_compute; reflexivity.
Defined.

Lemma X22_read_after_create_witness :
  handleCreate
    ({| Store := at_rest ∅; Port := ":3000" |},
     Recorder.request {[ "key" := "foo"; "value" := "bar" ]})
  = Done nil
      ({| Store := at_rest {[ "foo" := "bar" ]}; Port := ":3000" |},
       Recorder.mk {[ "key" := "foo"; "value" := "bar" ]}
                   [(200%Z, {[ "message" := "created" ]})])
  ∧ echo.Param "key" (Recorder.request {[ "key" := "foo" ]})
    = echo.Param "key"
        (Recorder.request {[ "key" := "foo"; "value" := "bar" ]})
  ∧ handleRead
      ({| Store := at_rest {[ "foo" := "bar" ]}; Port := ":3000" |},
       Recorder.request {[ "key" := "foo" ]})
    = on_ctx (echo.JSON 200 {[ "value" := "bar" ]})
        ({| Store := at_rest {[ "foo" := "bar" ]}; Port := ":3000" |},
         Recorder.request {[ "key" := "foo" ]}).
Proof.
  assert (handleCreate
            ({| Store := at_rest ∅; Port := ":3000" |},
             Recorder.request {[ "key" := "foo"; "value" := "bar" ]})
          = Done nil
              ({| Store := at_rest {[ "foo" := "bar" ]}; Port := ":3000" |},
               Recorder.mk {[ "key" := "foo"; "value" := "bar" ]}
                           [(200%Z, {[ "message" := "created" ]})])) as E1
    by (vm_compute; reflexivity).
  assert (echo.Param "key" (Recorder.request {[ "key" := "foo" ]})
          = echo.Param "key"
              (Recorder.request {[ "key" := "foo"; "value" := "bar" ]})) as E2
    by (vm_compute; reflexivity).
  split_and!; [exact E1|exact E2|].
  apply (X22_read_after_create ∅ ":3000" _ _ nil _ E1 E2).
Defined.
